(** * wger nutrition: the ingredient views

    A shallow embedding of [wger/nutrition/views/ingredient.py]: the cached
    single-item view, the moderation handlers [accept] and [decline], the
    two list querysets and the create view's [dispatch].

    The views run against three collaborators that live outside this file
    of the repository (the ORM table of ingredients, the cache store and the
    mail/messages channels).  They are modelled as one [World] value that is
    threaded through a small state-and-exception monad; every interaction
    with a collaborator is also appended to a trace, so that statements such
    as "no storage read" or "exactly one notification" are statements about
    the events a call adds to the trace. *)

From stdpp Require Import gmap strings list sorting.
From Stdlib Require Import ZArith.

Local Open Scope Z_scope.

(** ** Data model *)

(** [Ingredient.STATUS_PENDING], [Ingredient.STATUS_ACCEPTED] and
    [Ingredient.STATUS_DECLINED]. *)
Inductive Status : Type :=
  | STATUS_PENDING
  | STATUS_ACCEPTED
  | STATUS_DECLINED.

Global Instance Status_eq_dec : EqDecision Status.
Proof. solve_decision. Defined.

(** Modelled from the spec: the [Ingredient] model class of
    [wger.nutrition.models] is not part of this file.  The record has the
    primary key, the fields the views of this file name ([name], [language],
    [status], [creation_date] and the nutritional values listed by
    [IngredientDeleteView.fields]); nutritional values are opaque numbers. *)
Record Ingredient : Type := mkIngredient {
  pk : Z;
  name : string;
  language : Z;
  status : Status;
  creation_date : Z;
  energy : Z;
  protein : Z;
  carbohydrates : Z;
  carbohydrates_sugar : Z;
  fat : Z;
  fat_saturated : Z;
  fibres : Z;
  sodium : Z
}.

Global Instance Ingredient_eq_dec : EqDecision Ingredient.
Proof. solve_decision. Defined.

(** The assignment [ingredient.status = s] on a loaded instance. *)
Definition set_status (s : Status) (i : Ingredient) : Ingredient :=
  {| pk := pk i; name := name i; language := language i; status := s;
     creation_date := creation_date i; energy := energy i;
     protein := protein i; carbohydrates := carbohydrates i;
     carbohydrates_sugar := carbohydrates_sugar i; fat := fat i;
     fat_saturated := fat_saturated i; fibres := fibres i;
     sodium := sodium i |}.

(** Two instances that agree on every field except possibly [status]. *)
Definition same_but_status (a b : Ingredient) : Prop :=
  pk a = pk b ∧ name a = name b ∧ language a = language b ∧
  creation_date a = creation_date b ∧ energy a = energy b ∧
  protein a = protein b ∧ carbohydrates a = carbohydrates b ∧
  carbohydrates_sugar a = carbohydrates_sugar b ∧ fat a = fat b ∧
  fat_saturated a = fat_saturated b ∧ fibres a = fibres b ∧
  sodium a = sodium b.

(** [request.user.userprofile] and [request.user]. *)
Record UserProfile : Type := mkUserProfile {
  is_temporary : bool
}.

Record User : Type := mkUser {
  username : string;
  user_permissions : list string;
  userprofile : option UserProfile
}.

Record Request : Type := mkRequest {
  user : User
}.

Definition has_perm (u : User) (perm : string) : bool :=
  bool_decide (perm ∈ user_permissions u).

(** ** Cache keys *)

Inductive CacheKey : Type :=
  | IngredientKey (n : Z).

Global Instance CacheKey_eq_dec : EqDecision CacheKey.
Proof. solve_decision. Defined.

Global Instance CacheKey_countable : Countable CacheKey.
Proof.
  refine (inj_countable' (λ k, match k with IngredientKey n => n end)
                         IngredientKey _).
  by intros [].
Defined.

(** The argument of [cache_mapper.get_ingredient_key]: the view passes an
    integer in its first call and a model instance in its second. *)
Inductive KeyParam : Type :=
  | ParamInt (n : Z)
  | ParamModel (i : Ingredient).

(** Modelled from the spec: [cache_mapper] of [wger.utils.cache] is not part
    of this file.  The key of an ingredient is derived from its identifier,
    either the integer given or the instance's own primary key. *)
Definition get_pk (p : KeyParam) : Z :=
  match p with
  | ParamInt n => n
  | ParamModel i => pk i
  end.

Definition get_ingredient_key (p : KeyParam) : CacheKey :=
  IngredientKey (get_pk p).

(** ** Responses *)

Inductive Url : Type :=
  | IngredientUrl (n : Z).

(** Modelled from the spec: [Ingredient.get_absolute_url] is not part of
    this file; it is the record's canonical location. *)
Definition get_absolute_url (i : Ingredient) : Url := IngredientUrl (pk i).

(** [UnitChooserForm(data={'ingredient_id': .., 'amount': .., 'unit': ..})]. *)
Record UnitChooserForm : Type := mkUnitChooserForm {
  form_ingredient_id : Z;
  form_amount : Z;
  form_unit : option Z
}.

(** The [template_data] dictionary of [view], with its three fixed keys. *)
Record TemplateData : Type := mkTemplateData {
  td_ingredient : Ingredient;
  td_form : UnitChooserForm;
  td_show_shariff : bool
}.

Inductive HttpResponse : Type :=
  | Render (request : Request) (template : string) (data : TemplateData)
  | HttpResponseRedirect (target : Url)
  | HttpResponseForbidden
  | PermissionDeniedResponse.

(** ** The world and the trace *)

Inductive Event : Type :=
  | CacheGet (k : CacheKey)
  | CacheSet (k : CacheKey) (v : Ingredient)
  | DbGet (n : Z)
  | DbSave (i : Ingredient)
  | SendEmail (i : Ingredient) (request : Request)
  | MessageSuccess (request : Request) (text : string).

Record World : Type := mkWorld {
  db : list Ingredient;
  cache : gmap CacheKey Ingredient;
  trace : list Event
}.

Definition log (e : Event) (w : World) : World :=
  {| db := db w; cache := cache w; trace := trace w ++ [e] |}.

Definition is_db_read (e : Event) : bool :=
  match e with DbGet _ => true | _ => false end.

Definition is_db_write (e : Event) : bool :=
  match e with DbSave _ => true | _ => false end.

Definition is_cache_write (e : Event) : bool :=
  match e with CacheSet _ _ => true | _ => false end.

Definition is_notification (e : Event) : bool :=
  match e with SendEmail _ _ => true | _ => false end.

Definition count_events (p : Event → bool) (evs : list Event) : nat :=
  length (List.filter p evs).

(** ** The monad of views *)

Inductive Exn : Type :=
  | Http404
  | AttributeError.

Inductive Result (A : Type) : Type :=
  | Ok (a : A)
  | Raise (e : Exn).

Arguments Ok {A} a.
Arguments Raise {A} e.

Definition M (A : Type) : Type := World → Result A * World.

Global Instance M_ret : MRet M := λ A a w, (Ok a, w).

Global Instance M_bind : MBind M := λ A B f m w,
  match m w with
  | (Ok a, w') => f a w'
  | (Raise e, w') => (Raise e, w')
  end.

Definition raise {A : Type} (e : Exn) : M A := λ w, (Raise e, w).

(** ** Collaborators *)

(** [cache.get(key)]: the stored snapshot, or [None]. *)
Definition cache_get (k : CacheKey) : M (option Ingredient) :=
  λ w, (Ok (cache w !! k), log (CacheGet k) w).

(** [cache.set(key, value)]. *)
Definition cache_set (k : CacheKey) (v : Ingredient) : M unit :=
  λ w, (Ok tt, log (CacheSet k v)
                 {| db := db w; cache := <[k:=v]> (cache w);
                    trace := trace w |}).

(** The row selected by [Ingredient.objects.get(pk=n)]. *)
Definition db_get (n : Z) (rows : list Ingredient) : option Ingredient :=
  List.find (λ r, pk r =? n) rows.

(** [get_object_or_404(Ingredient, pk=n)]. *)
Definition get_object_or_404 (n : Z) : M Ingredient :=
  λ w, match db_get n (db w) with
       | Some i => (Ok i, log (DbGet n) w)
       | None => (Raise Http404, log (DbGet n) w)
       end.

(** Modelled from the spec: [Ingredient.save] is not part of this file; the
    storage collaborator saves or updates a record: the row with the
    instance's primary key is overwritten, and a row is added when there is
    none. *)
Definition db_save (i : Ingredient) (rows : list Ingredient) : list Ingredient :=
  if existsb (λ r, pk r =? pk i) rows
  then List.map (λ r, if pk r =? pk i then i else r) rows
  else rows ++ [i].

Definition save (i : Ingredient) : M unit :=
  λ w, (Ok tt, log (DbSave i)
                 {| db := db_save i (db w); cache := cache w;
                    trace := trace w |}).

(** Modelled from the spec: [Ingredient.send_email] is not part of this
    file; the notification sender takes the record and the request. *)
Definition send_email (i : Ingredient) (request : Request) : M unit :=
  λ w, (Ok tt, log (SendEmail i request) w).

(** [messages.success(request, text)]. *)
Definition messages_success (request : Request) (text : string) : M unit :=
  λ w, (Ok tt, log (MessageSuccess request text) w).

(** [request.user.userprofile]. *)
Definition get_userprofile (u : User) : M UserProfile :=
  match userprofile u with
  | Some p => mret p
  | None => raise AttributeError
  end.

(** The decorator [@permission_required(perm)]: the view runs only for a
    user holding [perm]; otherwise the decorator answers by itself. *)
Definition permission_required (perm : string)
    (view_func : Request → Z → M HttpResponse) : Request → Z → M HttpResponse :=
  λ request n,
    if has_perm (user request) perm
    then view_func request n
    else mret PermissionDeniedResponse.

(** ** The views *)

Definition render (request : Request) (template : string)
    (data : TemplateData) : M HttpResponse :=
  mret (Render request template data).

(** [view(request, id, slug=None)]. *)
Definition view (request : Request) (id : Z) : M HttpResponse :=
  cached ← cache_get (get_ingredient_key (ParamInt id));
  ingredient ← match cached with
               | Some i => mret i
               | None =>
                   i ← get_object_or_404 id;
                   cache_set (get_ingredient_key (ParamModel i)) i;;
                   mret i
               end;
  render request "ingredient/view.html"
    {| td_ingredient := ingredient;
       td_form := {| form_ingredient_id := pk ingredient;
                     form_amount := 100;
                     form_unit := None |};
       td_show_shariff := true |}.

(** The body of [accept(request, pk)]. *)
Definition accept_view (request : Request) (n : Z) : M HttpResponse :=
  loaded ← get_object_or_404 n;
  let ingredient := set_status STATUS_ACCEPTED loaded in
  save ingredient;;
  send_email ingredient request;;
  messages_success request
    "Ingredient was successfully added to the general database";;
  mret (HttpResponseRedirect (get_absolute_url ingredient)).

Definition accept : Request → Z → M HttpResponse :=
  permission_required "nutrition.add_ingredient" accept_view.

(** The body of [decline(request, pk)]. *)
Definition decline_view (request : Request) (n : Z) : M HttpResponse :=
  loaded ← get_object_or_404 n;
  let ingredient := set_status STATUS_DECLINED loaded in
  save ingredient;;
  messages_success request "Ingredient was successfully marked as rejected";;
  mret (HttpResponseRedirect (get_absolute_url ingredient)).

Definition decline : Request → Z → M HttpResponse :=
  permission_required "nutrition.add_ingredient" decline_view.

(** [PendingIngredientListView.get_queryset]: the rows of
    [filter(status=STATUS_PENDING).order_by('-creation_date')]. *)
Definition newer_first (a b : Ingredient) : Prop :=
  creation_date b ≤ creation_date a.

Global Instance newer_first_dec : RelDecision newer_first.
Proof. intros a b. unfold newer_first. apply _. Defined.

Definition order_by_creation_date_desc (rows : list Ingredient) : list Ingredient :=
  merge_sort newer_first rows.

Definition PendingIngredientListView_get_queryset
    (rows : list Ingredient) : list Ingredient :=
  order_by_creation_date_desc
    (List.filter (λ r, bool_decide (status r = STATUS_PENDING)) rows).

(** Modelled from the spec: the manager method [Ingredient.objects.accepted]
    of [wger.nutrition.models] is not part of this file; it selects the
    rows in the [accepted] state. *)
Definition accepted (rows : list Ingredient) : list Ingredient :=
  List.filter (λ r, bool_decide (status r = STATUS_ACCEPTED)) rows.

(** [IngredientListView.get_queryset]; [languages] is the value of
    [load_ingredient_languages(self.request)].  [only('id', 'name')] defers
    the loading of the other columns and selects the same rows. *)
Definition IngredientListView_get_queryset
    (load_ingredient_languages : Request → list Z)
    (request : Request) (rows : list Ingredient) : list Ingredient :=
  let languages := load_ingredient_languages request in
  List.filter (λ r, bool_decide (language r ∈ languages)) (accepted rows).

(** [IngredientCreateView.dispatch]; [super_dispatch] is the inherited
    [CreateView.dispatch], which processes the form. *)
Definition IngredientCreateView_dispatch
    (super_dispatch : Request → M HttpResponse)
    (request : Request) : M HttpResponse :=
  profile ← get_userprofile (user request);
  if is_temporary profile
  then mret HttpResponseForbidden
  else super_dispatch request.

(** ** The events of a successful moderation call *)

Definition accept_events (request : Request) (n : Z) (i : Ingredient) : list Event :=
  [DbGet n;
   DbSave (set_status STATUS_ACCEPTED i);
   SendEmail (set_status STATUS_ACCEPTED i) request;
   MessageSuccess request
     "Ingredient was successfully added to the general database"].

Definition decline_events (request : Request) (n : Z) (i : Ingredient) : list Event :=
  [DbGet n;
   DbSave (set_status STATUS_DECLINED i);
   MessageSuccess request "Ingredient was successfully marked as rejected"].

(** ** Notions used to state the properties of the views *)

(** The table in which every row of identifier [n] is overwritten by [x]:
    what a save of a loaded instance does to the table. *)
Definition update_rows (n : Z) (x : Ingredient) (rows : list Ingredient) : list Ingredient :=
  List.map (λ r, if pk r =? n then x else r) rows.

(** Every snapshot in the cache sits under the key of its own identifier. *)
Definition cache_consistent (c : gmap CacheKey Ingredient) : Prop :=
  ∀ n i, c !! get_ingredient_key (ParamInt n) = Some i → pk i = n.

(** The world a call leaves behind. *)
Definition world_after {A : Type} (run : M A) (w : World) : World := snd (run w).

(** ** Sample data *)

Module Samples.
Definition ingredient (n : Z) (s : Status) (created : Z) : Ingredient :=
  {| pk := n; name := "Oats"; language := 2; status := s;
     creation_date := created; energy := 370; protein := 13;
     carbohydrates := 59; carbohydrates_sugar := 1; fat := 7;
     fat_saturated := 1; fibres := 10; sodium := 0 |}.

Definition moderator : Request :=
  {| user := {| username := "admin";
                user_permissions := ["nutrition.add_ingredient";
                                     "nutrition.change_ingredient"];
                userprofile := Some {| is_temporary := false |} |} |}.

Definition visitor : Request :=
  {| user := {| username := "guest"; user_permissions := [];
                userprofile := Some {| is_temporary := false |} |} |}.

Definition demo : Request :=
  {| user := {| username := "demo"; user_permissions := [];
                userprofile := Some {| is_temporary := true |} |} |}.

Definition world (rows : list Ingredient) : World :=
  {| db := rows; cache := ∅; trace := [] |}.

(** The three records of the pending-list example: A created first and
    pending, B created next and accepted, C created last and pending. *)
Definition A : Ingredient := ingredient 1 STATUS_PENDING 10.
Definition B : Ingredient := ingredient 2 STATUS_ACCEPTED 20.
Definition C : Ingredient := ingredient 3 STATUS_PENDING 30.
End Samples.

(** ** Facts about the storage model *)

Section storage.
Implicit Types (rows : list Ingredient) (i : Ingredient) (n : Z).

Lemma db_get_pk rows n i : db_get n rows = Some i → pk i = n.
Proof.
  unfold db_get. intros H. apply find_some in H as [_ H]. lia.
Qed.

Lemma db_get_elem_of rows n i : db_get n rows = Some i → i ∈ rows.
Proof.
  unfold db_get. intros H. apply find_some in H as [H _].
  by apply list_elem_of_In.
Qed.

Lemma db_get_None rows n : db_get n rows = None ↔ ∀ r, r ∈ rows → pk r ≠ n.
Proof.
  unfold db_get. induction rows as [|r rows IH]; simpl.
  - split; [intros _ r' Hr'; by apply elem_of_nil in Hr' | done].
  - destruct (Z.eqb_spec (pk r) n) as [Heq|Hne].
    + split; [done|]. intros H. exfalso. apply (H r); [left | done].
    + rewrite IH. split.
      * intros H r' Hr'. apply elem_of_cons in Hr' as [->|Hr']; auto.
      * intros H r' Hr'. apply H. by right.
Qed.

Lemma existsb_db_get rows n :
  existsb (λ r, pk r =? n) rows = bool_decide (is_Some (db_get n rows)).
Proof.
  unfold db_get. induction rows as [|r rows IH]; simpl.
  - done.
  - by destruct (pk r =? n).
Qed.

Lemma db_get_app rows1 rows2 n :
  db_get n (rows1 ++ rows2) =
  match db_get n rows1 with
  | Some i => Some i
  | None => db_get n rows2
  end.
Proof.
  unfold db_get. induction rows1 as [|r rows1 IH]; simpl; [done|].
  by destruct (pk r =? n).
Qed.

Lemma db_get_replace rows n m i :
  pk i = m →
  db_get n (List.map (λ r, if pk r =? m then i else r) rows) =
  if n =? m
  then match db_get m rows with Some _ => Some i | None => None end
  else db_get n rows.
Proof.
  intros Hi. destruct (Z.eqb_spec n m) as [Hnm|Hnm].
  - subst n. unfold db_get.
    induction rows as [|r rows IH]; simpl; [done|].
    destruct (Z.eqb_spec (pk r) m) as [Hr|Hr]; simpl.
    + by rewrite Hi, Z.eqb_refl.
    + destruct (Z.eqb_spec (pk r) m) as [?|_]; [done|]. apply IH.
  - unfold db_get.
    induction rows as [|r rows IH]; simpl; [done|].
    destruct (Z.eqb_spec (pk r) m) as [Hr|Hr]; simpl.
    + rewrite Hi. destruct (Z.eqb_spec m n) as [?|_]; [congruence|].
      destruct (Z.eqb_spec (pk r) n) as [?|_]; [congruence|]. apply IH.
    + destruct (pk r =? n); [done|]. apply IH.
Qed.

(** A saved instance is the one read back under its primary key. *)
Lemma db_get_save_eq rows i : db_get (pk i) (db_save i rows) = Some i.
Proof.
  unfold db_save. rewrite existsb_db_get. case_bool_decide as H.
  - rewrite (db_get_replace _ _ (pk i)) by done. rewrite Z.eqb_refl.
    by destruct H as [? ->].
  - rewrite db_get_app.
    destruct (db_get (pk i) rows) eqn:E; [exfalso; eauto|].
    unfold db_get. simpl. by rewrite Z.eqb_refl.
Qed.

(** Saving an instance leaves the rows of other primary keys alone. *)
Lemma db_get_save_ne rows i n :
  n ≠ pk i → db_get n (db_save i rows) = db_get n rows.
Proof.
  intros Hn. unfold db_save. destruct (existsb _ rows).
  - rewrite (db_get_replace _ _ (pk i)) by done.
    by destruct (Z.eqb_spec n (pk i)).
  - rewrite db_get_app.
    destruct (db_get n rows); [done|]. unfold db_get. simpl.
    by destruct (Z.eqb_spec (pk i) n).
Qed.

(** Saving an instance that was loaded from the table adds no row and
    removes none. *)
Lemma db_save_length rows i :
  is_Some (db_get (pk i) rows) → length (db_save i rows) = length rows.
Proof.
  intros H. unfold db_save. rewrite existsb_db_get.
  rewrite bool_decide_eq_true_2 by done. apply length_map.
Qed.

Lemma set_status_status s i : status (set_status s i) = s.
Proof. done. Qed.

Lemma set_status_pk s i : pk (set_status s i) = pk i.
Proof. done. Qed.

Lemma set_status_same s i : same_but_status i (set_status s i).
Proof. by repeat split. Qed.
End storage.

(** ** Running the handlers *)

Ltac run_view :=
  unfold accept, decline, permission_required, accept_view, decline_view,
    view, render, IngredientCreateView_dispatch, get_userprofile,
    get_object_or_404, save, send_email, messages_success, cache_get,
    cache_set, raise, mbind, mret, M_bind, M_ret, log; simpl.

Lemma accept_view_found request n w i :
  db_get n (db w) = Some i →
  accept_view request n w =
    (Ok (HttpResponseRedirect (IngredientUrl n)),
     {| db := db_save (set_status STATUS_ACCEPTED i) (db w);
        cache := cache w;
        trace := trace w ++ accept_events request n i |}).
Proof.
  intros H. run_view. rewrite H. simpl.
  unfold get_absolute_url, accept_events. simpl.
  rewrite (db_get_pk _ _ _ H).
  by rewrite <- !app_assoc.
Qed.

Lemma decline_view_found request n w i :
  db_get n (db w) = Some i →
  decline_view request n w =
    (Ok (HttpResponseRedirect (IngredientUrl n)),
     {| db := db_save (set_status STATUS_DECLINED i) (db w);
        cache := cache w;
        trace := trace w ++ decline_events request n i |}).
Proof.
  intros H. run_view. rewrite H. simpl.
  unfold get_absolute_url, decline_events. simpl.
  rewrite (db_get_pk _ _ _ H).
  by rewrite <- !app_assoc.
Qed.

Lemma accept_view_missing request n w :
  db_get n (db w) = None →
  accept_view request n w = (Raise Http404, log (DbGet n) w).
Proof. intros H. run_view. by rewrite H. Qed.

Lemma decline_view_missing request n w :
  db_get n (db w) = None →
  decline_view request n w = (Raise Http404, log (DbGet n) w).
Proof. intros H. run_view. by rewrite H. Qed.

Lemma accept_allowed request n w :
  has_perm (user request) "nutrition.add_ingredient" = true →
  accept request n w = accept_view request n w.
Proof. intros H. unfold accept, permission_required. by rewrite H. Qed.

Lemma decline_allowed request n w :
  has_perm (user request) "nutrition.add_ingredient" = true →
  decline request n w = decline_view request n w.
Proof. intros H. unfold decline, permission_required. by rewrite H. Qed.

Lemma decline_refused request n w :
  has_perm (user request) "nutrition.add_ingredient" = false →
  decline request n w = (Ok PermissionDeniedResponse, w).
Proof. intros H. unfold decline, permission_required. by rewrite H. Qed.

Lemma view_hit request id w snapshot :
  cache w !! get_ingredient_key (ParamInt id) = Some snapshot →
  view request id w =
    (Ok (Render request "ingredient/view.html"
           {| td_ingredient := snapshot;
              td_form := {| form_ingredient_id := pk snapshot;
                            form_amount := 100; form_unit := None |};
              td_show_shariff := true |}),
     log (CacheGet (get_ingredient_key (ParamInt id))) w).
Proof. intros H. run_view. by rewrite H. Qed.

Lemma view_miss_found request id w i :
  cache w !! get_ingredient_key (ParamInt id) = None →
  db_get id (db w) = Some i →
  view request id w =
    (Ok (Render request "ingredient/view.html"
           {| td_ingredient := i;
              td_form := {| form_ingredient_id := pk i;
                            form_amount := 100; form_unit := None |};
              td_show_shariff := true |}),
     {| db := db w;
        cache := <[get_ingredient_key (ParamModel i) := i]> (cache w);
        trace := trace w ++ [CacheGet (get_ingredient_key (ParamInt id));
                             DbGet id;
                             CacheSet (get_ingredient_key (ParamModel i)) i] |}).
Proof.
  intros Hc Hd. run_view. rewrite Hc. simpl. rewrite Hd. simpl.
  by rewrite <- !app_assoc.
Qed.

Lemma view_miss_missing request id w :
  cache w !! get_ingredient_key (ParamInt id) = None →
  db_get id (db w) = None →
  view request id w =
    (Raise Http404,
     {| db := db w; cache := cache w;
        trace := trace w ++ [CacheGet (get_ingredient_key (ParamInt id));
                             DbGet id] |}).
Proof.
  intros Hc Hd. run_view. rewrite Hc. simpl. rewrite Hd. simpl.
  by rewrite <- !app_assoc.
Qed.

(** The key computed from a loaded instance is the key computed from the
    identifier it was loaded under. *)
Lemma get_ingredient_key_loaded rows n i :
  db_get n rows = Some i →
  get_ingredient_key (ParamModel i) = get_ingredient_key (ParamInt n).
Proof.
  intros H. unfold get_ingredient_key. simpl. by rewrite (db_get_pk _ _ _ H).
Qed.

(** ** The ordering of the pending list *)

Global Instance newer_first_total : Total newer_first.
Proof. intros a b. unfold newer_first. lia. Qed.

Global Instance newer_first_trans : Transitive newer_first.
Proof. intros a b c. unfold newer_first. lia. Qed.

Lemma elem_of_filter_status (s : Status) (rows : list Ingredient) (r : Ingredient) :
  r ∈ List.filter (λ r, bool_decide (status r = s)) rows ↔
  r ∈ rows ∧ status r = s.
Proof.
  rewrite !list_elem_of_In, filter_In, bool_decide_eq_true. done.
Qed.

Example pending_list_example :
  PendingIngredientListView_get_queryset [Samples.A; Samples.B; Samples.C] =
  [Samples.C; Samples.A].
Proof. vm_compute. reflexivity. Qed.

Example accept_example :
  fst (accept Samples.moderator 1 (Samples.world [Samples.A; Samples.B])) =
    Ok (HttpResponseRedirect (IngredientUrl 1)) ∧
  db (snd (accept Samples.moderator 1 (Samples.world [Samples.A; Samples.B]))) =
    [set_status STATUS_ACCEPTED Samples.A; Samples.B].
Proof. vm_compute. done. Qed.

Example decline_refused_example :
  decline Samples.visitor 1 (Samples.world [Samples.A]) =
  (Ok PermissionDeniedResponse, Samples.world [Samples.A]).
Proof. reflexivity. Qed.

(** ** The moderation handlers *)

(** C1: for an existing pending record and a caller holding the add
    privilege, [accept] answers with a redirect, the table then holds the
    record with status accepted under the same identifier, every field other
    than the status is unchanged, the call adds exactly one save and exactly
    one notification (for the saved record and the current request) to the
    trace, and the rows of other identifiers are untouched. *)
Theorem accept_pending_record request n w i :
  has_perm (user request) "nutrition.add_ingredient" = true →
  db_get n (db w) = Some i →
  status i = STATUS_PENDING →
  ∃ w' evs i',
    accept request n w = (Ok (HttpResponseRedirect (get_absolute_url i')), w') ∧
    trace w' = trace w ++ evs ∧
    db_get n (db w') = Some i' ∧
    status i' = STATUS_ACCEPTED ∧
    same_but_status i i' ∧
    count_events is_db_write evs = 1%nat ∧
    DbSave i' ∈ evs ∧
    count_events is_notification evs = 1%nat ∧
    SendEmail i' request ∈ evs ∧
    cache w' = cache w ∧
    ∀ m, m ≠ n → db_get m (db w') = db_get m (db w).
Proof.
  intros Hperm Hget _.
  pose proof (db_get_pk _ _ _ Hget) as Hpk.
  exists {| db := db_save (set_status STATUS_ACCEPTED i) (db w);
            cache := cache w;
            trace := trace w ++ accept_events request n i |},
         (accept_events request n i), (set_status STATUS_ACCEPTED i).
  rewrite accept_allowed, (accept_view_found _ _ _ i) by done.
  unfold get_absolute_url. simpl. rewrite Hpk.
  repeat split; try done.
  - rewrite <- Hpk. apply (db_get_save_eq _ (set_status STATUS_ACCEPTED i)).
  - unfold accept_events. set_solver.
  - unfold accept_events. set_solver.
  - intros m Hm. apply db_get_save_ne. simpl. congruence.
Qed.

Lemma accept_pending_record_witness :
  has_perm (user Samples.moderator) "nutrition.add_ingredient" = true ∧
  db_get 1 (db (Samples.world [Samples.A; Samples.B])) = Some Samples.A ∧
  status Samples.A = STATUS_PENDING ∧
  ∃ w' evs i',
    accept Samples.moderator 1 (Samples.world [Samples.A; Samples.B]) =
      (Ok (HttpResponseRedirect (get_absolute_url i')), w') ∧
    trace w' = trace (Samples.world [Samples.A; Samples.B]) ++ evs ∧
    db_get 1 (db w') = Some i' ∧
    status i' = STATUS_ACCEPTED ∧
    same_but_status Samples.A i' ∧
    count_events is_db_write evs = 1%nat ∧
    DbSave i' ∈ evs ∧
    count_events is_notification evs = 1%nat ∧
    SendEmail i' Samples.moderator ∈ evs ∧
    cache w' = cache (Samples.world [Samples.A; Samples.B]) ∧
    ∀ m, m ≠ 1 →
      db_get m (db w') = db_get m (db (Samples.world [Samples.A; Samples.B])).
Proof.
  split; [reflexivity|]. split; [reflexivity|]. split; [reflexivity|].
  apply (accept_pending_record Samples.moderator 1
           (Samples.world [Samples.A; Samples.B]) Samples.A); reflexivity.
Defined.

(** C2: for an existing pending record and a caller holding the add
    privilege, [decline] answers with a redirect, the table then holds the
    record with status declined under the same identifier, the call adds
    exactly one save to the trace and no notification. *)
Theorem decline_pending_record request n w i :
  has_perm (user request) "nutrition.add_ingredient" = true →
  db_get n (db w) = Some i →
  status i = STATUS_PENDING →
  ∃ w' evs i',
    decline request n w = (Ok (HttpResponseRedirect (get_absolute_url i')), w') ∧
    trace w' = trace w ++ evs ∧
    db_get n (db w') = Some i' ∧
    status i' = STATUS_DECLINED ∧
    count_events is_db_write evs = 1%nat ∧
    DbSave i' ∈ evs ∧
    count_events is_notification evs = 0%nat.
Proof.
  intros Hperm Hget _.
  pose proof (db_get_pk _ _ _ Hget) as Hpk.
  exists {| db := db_save (set_status STATUS_DECLINED i) (db w);
            cache := cache w;
            trace := trace w ++ decline_events request n i |},
         (decline_events request n i), (set_status STATUS_DECLINED i).
  rewrite decline_allowed, (decline_view_found _ _ _ i) by done.
  unfold get_absolute_url. simpl. rewrite Hpk.
  repeat split; try done.
  - rewrite <- Hpk. apply (db_get_save_eq _ (set_status STATUS_DECLINED i)).
  - unfold decline_events. set_solver.
Qed.

Lemma decline_pending_record_witness :
  has_perm (user Samples.moderator) "nutrition.add_ingredient" = true ∧
  db_get 3 (db (Samples.world [Samples.A; Samples.B; Samples.C])) =
    Some Samples.C ∧
  status Samples.C = STATUS_PENDING ∧
  ∃ w' evs i',
    decline Samples.moderator 3 (Samples.world [Samples.A; Samples.B; Samples.C]) =
      (Ok (HttpResponseRedirect (get_absolute_url i')), w') ∧
    trace w' = trace (Samples.world [Samples.A; Samples.B; Samples.C]) ++ evs ∧
    db_get 3 (db w') = Some i' ∧
    status i' = STATUS_DECLINED ∧
    count_events is_db_write evs = 1%nat ∧
    DbSave i' ∈ evs ∧
    count_events is_notification evs = 0%nat.
Proof.
  split; [reflexivity|]. split; [reflexivity|]. split; [reflexivity|].
  apply (decline_pending_record Samples.moderator 3
           (Samples.world [Samples.A; Samples.B; Samples.C]) Samples.C);
    reflexivity.
Defined.

(** C6: when the identifier resolves to no record, [accept] and [decline]
    called by a holder of the add privilege both fail with the not-found
    error; the table and the cache after the failed call are those before
    it, and the call adds no save and no notification to the trace. *)
Theorem transitions_on_missing_record request n w :
  has_perm (user request) "nutrition.add_ingredient" = true →
  db_get n (db w) = None →
  ∃ w' evs,
    accept request n w = (Raise Http404, w') ∧
    decline request n w = (Raise Http404, w') ∧
    db w' = db w ∧
    cache w' = cache w ∧
    trace w' = trace w ++ evs ∧
    count_events is_db_write evs = 0%nat ∧
    count_events is_notification evs = 0%nat.
Proof.
  intros Hperm Hget. exists (log (DbGet n) w), [DbGet n].
  rewrite accept_allowed, decline_allowed by done.
  rewrite accept_view_missing, decline_view_missing by done.
  by repeat split.
Qed.

Lemma transitions_on_missing_record_witness :
  has_perm (user Samples.moderator) "nutrition.add_ingredient" = true ∧
  db_get 7 (db (Samples.world [Samples.A; Samples.B])) = None ∧
  ∃ w' evs,
    accept Samples.moderator 7 (Samples.world [Samples.A; Samples.B]) =
      (Raise Http404, w') ∧
    decline Samples.moderator 7 (Samples.world [Samples.A; Samples.B]) =
      (Raise Http404, w') ∧
    db w' = db (Samples.world [Samples.A; Samples.B]) ∧
    cache w' = cache (Samples.world [Samples.A; Samples.B]) ∧
    trace w' = trace (Samples.world [Samples.A; Samples.B]) ++ evs ∧
    count_events is_db_write evs = 0%nat ∧
    count_events is_notification evs = 0%nat.
Proof.
  split; [reflexivity|]. split; [reflexivity|].
  apply (transitions_on_missing_record Samples.moderator 7
           (Samples.world [Samples.A; Samples.B])); reflexivity.
Defined.

(** C7: neither handler looks at the current status.  For an existing
    record in any status and a caller holding the add privilege, [accept]
    answers with the redirect rather than an error, the record then stored
    under the identifier has status accepted and is otherwise the loaded
    one, and the notification is sent again for it; [decline] answers with
    the redirect, the record then stored has status declined and is
    otherwise the loaded one, and no notification is sent. *)
Theorem transitions_ignore_current_status request n w i s :
  has_perm (user request) "nutrition.add_ingredient" = true →
  db_get n (db w) = Some i →
  status i = s →
  (∃ w' i',
     accept request n w = (Ok (HttpResponseRedirect (IngredientUrl n)), w') ∧
     db_get n (db w') = Some i' ∧
     status i' = STATUS_ACCEPTED ∧
     same_but_status i i' ∧
     i' = set_status STATUS_ACCEPTED i ∧
     trace w' = trace w ++ accept_events request n i ∧
     DbSave i' ∈ accept_events request n i ∧
     SendEmail i' request ∈ accept_events request n i ∧
     count_events is_notification (accept_events request n i) = 1%nat) ∧
  (∃ w' i',
     decline request n w = (Ok (HttpResponseRedirect (IngredientUrl n)), w') ∧
     db_get n (db w') = Some i' ∧
     status i' = STATUS_DECLINED ∧
     same_but_status i i' ∧
     i' = set_status STATUS_DECLINED i ∧
     trace w' = trace w ++ decline_events request n i ∧
     DbSave i' ∈ decline_events request n i ∧
     count_events is_notification (decline_events request n i) = 0%nat).
Proof.
  intros Hperm Hget _.
  pose proof (db_get_pk _ _ _ Hget) as Hpk.
  rewrite accept_allowed, decline_allowed by done.
  rewrite (accept_view_found _ _ _ i), (decline_view_found _ _ _ i) by done.
  split.
  - eexists _, (set_status STATUS_ACCEPTED i). split; [reflexivity|]. simpl.
    split; [rewrite <- Hpk; apply (db_get_save_eq _ (set_status STATUS_ACCEPTED i))|].
    split; [reflexivity|].
    split; [exact (set_status_same STATUS_ACCEPTED i)|].
    unfold accept_events. repeat split; set_solver.
  - eexists _, (set_status STATUS_DECLINED i). split; [reflexivity|]. simpl.
    split; [rewrite <- Hpk; apply (db_get_save_eq _ (set_status STATUS_DECLINED i))|].
    split; [reflexivity|].
    split; [exact (set_status_same STATUS_DECLINED i)|].
    unfold decline_events. repeat split; set_solver.
Qed.

Lemma transitions_ignore_current_status_witness :
  has_perm (user Samples.moderator) "nutrition.add_ingredient" = true ∧
  db_get 2 (db (Samples.world [Samples.A; Samples.B])) = Some Samples.B ∧
  status Samples.B = STATUS_ACCEPTED ∧
  (∃ w' i',
     accept Samples.moderator 2 (Samples.world [Samples.A; Samples.B]) =
       (Ok (HttpResponseRedirect (IngredientUrl 2)), w') ∧
     db_get 2 (db w') = Some i' ∧
     status i' = STATUS_ACCEPTED ∧
     same_but_status Samples.B i' ∧
     i' = set_status STATUS_ACCEPTED Samples.B ∧
     trace w' = trace (Samples.world [Samples.A; Samples.B]) ++
                accept_events Samples.moderator 2 Samples.B ∧
     DbSave i' ∈ accept_events Samples.moderator 2 Samples.B ∧
     SendEmail i' Samples.moderator ∈
       accept_events Samples.moderator 2 Samples.B ∧
     count_events is_notification
       (accept_events Samples.moderator 2 Samples.B) = 1%nat) ∧
  (∃ w' i',
     decline Samples.moderator 2 (Samples.world [Samples.A; Samples.B]) =
       (Ok (HttpResponseRedirect (IngredientUrl 2)), w') ∧
     db_get 2 (db w') = Some i' ∧
     status i' = STATUS_DECLINED ∧
     same_but_status Samples.B i' ∧
     i' = set_status STATUS_DECLINED Samples.B ∧
     trace w' = trace (Samples.world [Samples.A; Samples.B]) ++
                decline_events Samples.moderator 2 Samples.B ∧
     DbSave i' ∈ decline_events Samples.moderator 2 Samples.B ∧
     count_events is_notification
       (decline_events Samples.moderator 2 Samples.B) = 0%nat).
Proof.
  split; [reflexivity|]. split; [reflexivity|]. split; [reflexivity|].
  apply (transitions_ignore_current_status Samples.moderator 2
           (Samples.world [Samples.A; Samples.B]) Samples.B STATUS_ACCEPTED);
    reflexivity.
Defined.

(** C8: [decline] deletes nothing.  Whoever calls it on an existing record,
    the call returns a response, the table afterwards has as many rows as
    before, still holds a record under the same identifier that differs
    from the old one in its status at most, and holds the same rows under
    every other identifier; for a caller holding the add privilege the
    stored status is declined. *)
Theorem decline_keeps_record request n w i :
  db_get n (db w) = Some i →
  ∃ response w' i',
    decline request n w = (Ok response, w') ∧
    db_get n (db w') = Some i' ∧
    pk i' = n ∧
    same_but_status i i' ∧
    length (db w') = length (db w) ∧
    (∀ m, m ≠ n → db_get m (db w') = db_get m (db w)) ∧
    (has_perm (user request) "nutrition.add_ingredient" = true →
     status i' = STATUS_DECLINED).
Proof.
  intros Hget. pose proof (db_get_pk _ _ _ Hget) as Hpk.
  destruct (has_perm (user request) "nutrition.add_ingredient") eqn:Hperm.
  - exists (HttpResponseRedirect (IngredientUrl n)),
           {| db := db_save (set_status STATUS_DECLINED i) (db w);
              cache := cache w;
              trace := trace w ++ decline_events request n i |},
           (set_status STATUS_DECLINED i).
    rewrite decline_allowed, (decline_view_found _ _ _ i) by done. simpl.
    repeat split; try done.
    + rewrite <- Hpk. apply (db_get_save_eq _ (set_status STATUS_DECLINED i)).
    + apply db_save_length. simpl. rewrite Hpk, Hget. eauto.
    + intros m Hm. apply db_get_save_ne. simpl. congruence.
  - exists PermissionDeniedResponse, w, i.
    rewrite decline_refused by done.
    repeat split; done.
Qed.

Lemma decline_keeps_record_witness :
  db_get 1 (db (Samples.world [Samples.A; Samples.B])) = Some Samples.A ∧
  ∃ response w' i',
    decline Samples.moderator 1 (Samples.world [Samples.A; Samples.B]) =
      (Ok response, w') ∧
    db_get 1 (db w') = Some i' ∧
    pk i' = 1 ∧
    same_but_status Samples.A i' ∧
    length (db w') = length (db (Samples.world [Samples.A; Samples.B])) ∧
    (∀ m, m ≠ 1 →
       db_get m (db w') = db_get m (db (Samples.world [Samples.A; Samples.B]))) ∧
    (has_perm (user Samples.moderator) "nutrition.add_ingredient" = true →
     status i' = STATUS_DECLINED).
Proof.
  split; [reflexivity|].
  apply (decline_keeps_record Samples.moderator 1
           (Samples.world [Samples.A; Samples.B]) Samples.A); reflexivity.
Defined.

(** ** The create view *)

(** C10: for a request whose user has a profile marked temporary,
    [dispatch] answers Forbidden whatever the inherited dispatch would do,
    and the world (the table of ingredients included) is left as it was, so
    no form is processed and no record is created. *)
Theorem create_dispatch_refuses_demo_user super_dispatch request profile w :
  userprofile (user request) = Some profile →
  is_temporary profile = true →
  IngredientCreateView_dispatch super_dispatch request w =
    (Ok HttpResponseForbidden, w).
Proof.
  intros Hprofile Htemp. run_view. rewrite Hprofile. simpl. by rewrite Htemp.
Qed.

Lemma create_dispatch_refuses_demo_user_witness :
  userprofile (user Samples.demo) = Some {| is_temporary := true |} ∧
  is_temporary {| is_temporary := true |} = true ∧
  IngredientCreateView_dispatch
    (λ request w,
       (Ok (HttpResponseRedirect (IngredientUrl 9)),
        {| db := db w ++ [Samples.ingredient 9 STATUS_PENDING 40];
           cache := cache w; trace := trace w |}))
    Samples.demo (Samples.world [Samples.A]) =
    (Ok HttpResponseForbidden, Samples.world [Samples.A]).
Proof.
  split; [reflexivity|]. split; [reflexivity|].
  apply (create_dispatch_refuses_demo_user _ Samples.demo
           {| is_temporary := true |} (Samples.world [Samples.A]));
    reflexivity.
Defined.

(** ** The list querysets *)

(** C5: whatever the table holds, the pending-list queryset is a
    rearrangement of exactly the rows whose status is pending (each as often
    as it occurs in the table), it is ordered by creation date with the most
    recent first, and it holds no accepted and no declined row. *)
Theorem pending_list_queryset (rows : list Ingredient) :
  PendingIngredientListView_get_queryset rows ≡ₚ
    List.filter (λ r, bool_decide (status r = STATUS_PENDING)) rows ∧
  (∀ r, r ∈ PendingIngredientListView_get_queryset rows ↔
        r ∈ rows ∧ status r = STATUS_PENDING) ∧
  StronglySorted (λ a b, creation_date b ≤ creation_date a)
    (PendingIngredientListView_get_queryset rows) ∧
  Forall (λ r, status r ≠ STATUS_ACCEPTED ∧ status r ≠ STATUS_DECLINED)
    (PendingIngredientListView_get_queryset rows).
Proof.
  unfold PendingIngredientListView_get_queryset, order_by_creation_date_desc.
  assert (Hmem : ∀ r,
    r ∈ merge_sort newer_first
          (List.filter (λ r, bool_decide (status r = STATUS_PENDING)) rows) ↔
    r ∈ rows ∧ status r = STATUS_PENDING).
  { intros r. rewrite merge_sort_Permutation. apply elem_of_filter_status. }
  split; [apply merge_sort_Permutation|].
  split; [exact Hmem|].
  split.
  - apply (StronglySorted_merge_sort newer_first).
  - apply Forall_forall. intros r Hr. apply Hmem in Hr as [_ Hr].
    rewrite Hr. done.
Qed.

(** C9: the public overview queryset holds exactly the rows of the table
    that are accepted and written in one of the requester's languages, in
    the order of the table; no pending and no declined row is in it. *)
Theorem public_list_only_accepted
    (load_ingredient_languages : Request → list Z)
    (request : Request) (rows : list Ingredient) :
  (∀ r, r ∈ IngredientListView_get_queryset load_ingredient_languages request rows ↔
        r ∈ rows ∧ status r = STATUS_ACCEPTED ∧
        language r ∈ load_ingredient_languages request) ∧
  Forall (λ r, status r ≠ STATUS_PENDING ∧ status r ≠ STATUS_DECLINED)
    (IngredientListView_get_queryset load_ingredient_languages request rows).
Proof.
  assert (Hmem : ∀ r,
    r ∈ IngredientListView_get_queryset load_ingredient_languages request rows ↔
    r ∈ rows ∧ status r = STATUS_ACCEPTED ∧
    language r ∈ load_ingredient_languages request).
  { intros r. unfold IngredientListView_get_queryset, accepted. simpl.
    rewrite list_elem_of_In, filter_In, <- list_elem_of_In.
    rewrite elem_of_filter_status, bool_decide_eq_true. tauto. }
  split; [exact Hmem|].
  apply Forall_forall. intros r Hr. apply Hmem in Hr as (_ & Hr & _).
  rewrite Hr. done.
Qed.

Example public_list_example :
  IngredientListView_get_queryset (λ _, [2]) Samples.visitor
    [Samples.A; Samples.B; Samples.C] = [Samples.B].
Proof. vm_compute. reflexivity. Qed.

(** ** The cached single-item view *)

(** C3: [view] always starts with a cache read under the key of the
    identifier and never changes the table.  On a hit it renders the cached
    snapshot, reads no row and leaves the cache alone.  On a miss it reads
    the row: when there is one it stores it in the cache under the key of
    the loaded instance and renders it; when there is none it fails with
    the not-found error and leaves the cache alone.  A cache write or a
    changed cache therefore implies a miss. *)
Theorem view_cached_lookup request id w :
  ∃ result w' evs,
    view request id w = (result, w') ∧
    trace w' = trace w ++ CacheGet (get_ingredient_key (ParamInt id)) :: evs ∧
    db w' = db w ∧
    match cache w !! get_ingredient_key (ParamInt id) with
    | Some snapshot =>
        (∃ data, result = Ok (Render request "ingredient/view.html" data) ∧
                 td_ingredient data = snapshot) ∧
        evs = [] ∧
        cache w' = cache w
    | None =>
        match db_get id (db w) with
        | Some i =>
            (∃ data, result = Ok (Render request "ingredient/view.html" data) ∧
                     td_ingredient data = i) ∧
            evs = [DbGet id; CacheSet (get_ingredient_key (ParamModel i)) i] ∧
            cache w' = <[get_ingredient_key (ParamModel i) := i]> (cache w)
        | None =>
            result = Raise Http404 ∧
            evs = [DbGet id] ∧
            cache w' = cache w
        end
    end ∧
    (is_Some (cache w !! get_ingredient_key (ParamInt id)) →
     count_events is_db_read evs = 0%nat) ∧
    (count_events is_cache_write evs ≠ 0%nat ∨ cache w' ≠ cache w →
     cache w !! get_ingredient_key (ParamInt id) = None).
Proof.
  destruct (cache w !! get_ingredient_key (ParamInt id)) as [snapshot|] eqn:Hc.
  - eexists _, _, []. rewrite (view_hit _ _ _ snapshot) by done.
    repeat split; simpl; eauto.
    intros [H|H]; by destruct H.
  - destruct (db_get id (db w)) as [i|] eqn:Hd.
    + eexists _, _, _. rewrite (view_miss_found _ _ _ i) by done.
      repeat split; simpl; eauto.
      by intros [? ?].
    + eexists _, _, _. rewrite view_miss_missing by done.
      repeat split; simpl; eauto.
      by intros [? ?].
Qed.

(** C4: when the identifier resolves to a record, a first [view] renders
    some data, and a later [view] of the same identifier, run in any world
    whose cache still answers that identifier's key as it did right after
    the first call, renders the same data, reads no row (its only event is
    the cache read) and changes neither the table nor the cache. *)
Theorem view_second_lookup_is_hit request1 request2 id w i :
  db_get id (db w) = Some i →
  ∃ data w1,
    view request1 id w = (Ok (Render request1 "ingredient/view.html" data), w1) ∧
    ∀ w1',
      cache w1' !! get_ingredient_key (ParamInt id) =
      cache w1 !! get_ingredient_key (ParamInt id) →
      ∃ w2,
        view request2 id w1' =
          (Ok (Render request2 "ingredient/view.html" data), w2) ∧
        trace w2 = trace w1' ++ [CacheGet (get_ingredient_key (ParamInt id))] ∧
        count_events is_db_read
          [CacheGet (get_ingredient_key (ParamInt id))] = 0%nat ∧
        db w2 = db w1' ∧
        cache w2 = cache w1'.
Proof.
  intros Hd.
  destruct (cache w !! get_ingredient_key (ParamInt id)) as [snapshot|] eqn:Hc.
  - eexists _, _. rewrite (view_hit _ _ _ snapshot) by done.
    split; [reflexivity|]. simpl. intros w1' Hsame. rewrite Hc in Hsame.
    eexists. rewrite (view_hit _ _ _ snapshot) by done.
    by repeat split.
  - eexists _, _. rewrite (view_miss_found _ _ _ i) by done.
    split; [reflexivity|]. simpl. intros w1' Hsame.
    rewrite (get_ingredient_key_loaded _ _ _ Hd), lookup_insert_eq in Hsame.
    eexists. rewrite (view_hit _ _ _ i) by done.
    by repeat split.
Qed.

Lemma view_second_lookup_is_hit_witness :
  db_get 2 (db (Samples.world [Samples.A; Samples.B])) = Some Samples.B ∧
  ∃ data w1,
    view Samples.visitor 2 (Samples.world [Samples.A; Samples.B]) =
      (Ok (Render Samples.visitor "ingredient/view.html" data), w1) ∧
    ∀ w1',
      cache w1' !! get_ingredient_key (ParamInt 2) =
      cache w1 !! get_ingredient_key (ParamInt 2) →
      ∃ w2,
        view Samples.moderator 2 w1' =
          (Ok (Render Samples.moderator "ingredient/view.html" data), w2) ∧
        trace w2 = trace w1' ++ [CacheGet (get_ingredient_key (ParamInt 2))] ∧
        count_events is_db_read
          [CacheGet (get_ingredient_key (ParamInt 2))] = 0%nat ∧
        db w2 = db w1' ∧
        cache w2 = cache w1'.
Proof.
  split; [reflexivity|].
  apply (view_second_lookup_is_hit Samples.visitor Samples.moderator 2
           (Samples.world [Samples.A; Samples.B]) Samples.B); reflexivity.
Defined.

(** ** Further facts about saving a loaded instance *)

Lemma db_save_loaded rows i :
  is_Some (db_get (pk i) rows) → db_save i rows = update_rows (pk i) i rows.
Proof.
  intros H. unfold db_save. rewrite existsb_db_get.
  by rewrite bool_decide_eq_true_2.
Qed.

Lemma update_rows_pk n x rows :
  pk x = n → pk <$> update_rows n x rows = pk <$> rows.
Proof.
  intros Hx. unfold update_rows. induction rows as [|r rows IH]; [done|].
  simpl. change (list_fmap _ _ pk) with (fmap (M:=list) pk). rewrite IH. f_equal.
  destruct (Z.eqb_spec (pk r) n); congruence.
Qed.

Lemma length_update_rows n x rows :
  length (update_rows n x rows) = length rows.
Proof. unfold update_rows. apply length_map. Qed.

Lemma lookup_update_rows n x rows (k : nat) r :
  rows !! k = Some r →
  update_rows n x rows !! k = Some (if pk r =? n then x else r).
Proof.
  unfold update_rows. revert k.
  induction rows as [|r0 rows IH]; intros k Hk; [done|].
  destruct k as [|k]; simpl in *.
  - by injection Hk as ->.
  - by apply IH.
Qed.

Lemma update_rows_twice n x y rows :
  pk x = n → update_rows n y (update_rows n x rows) = update_rows n y rows.
Proof.
  intros Hx. unfold update_rows. rewrite map_map. apply map_ext. intros r.
  destruct (Z.eqb_spec (pk r) n) as [Hr|Hr].
  - by rewrite Hx, Z.eqb_refl.
  - by destruct (Z.eqb_spec (pk r) n).
Qed.

Lemma elem_of_update_rows n x rows r :
  r ∈ update_rows n x rows ↔
  (r = x ∧ ∃ r0, r0 ∈ rows ∧ pk r0 = n) ∨ (r ∈ rows ∧ pk r ≠ n).
Proof.
  unfold update_rows. rewrite list_elem_of_In, in_map_iff. split.
  - intros (r0 & Hr0 & Hin). apply list_elem_of_In in Hin.
    destruct (Z.eqb_spec (pk r0) n) as [Heq|Hne].
    + left. split; [done|]. eauto.
    + right. subst r. done.
  - intros [(-> & r0 & Hin & Hpk)|(Hin & Hpk)].
    + exists r0. split; [|by apply list_elem_of_In].
      by destruct (Z.eqb_spec (pk r0) n).
    + exists r. split; [|by apply list_elem_of_In].
      by destruct (Z.eqb_spec (pk r) n).
Qed.

Lemma db_get_update_rows n x rows i :
  pk x = n → db_get n rows = Some i → db_get n (update_rows n x rows) = Some x.
Proof.
  intros Hx Hget. unfold update_rows.
  rewrite (db_get_replace _ _ n) by done. by rewrite Z.eqb_refl, Hget.
Qed.

Lemma accept_run request n w i :
  has_perm (user request) "nutrition.add_ingredient" = true →
  db_get n (db w) = Some i →
  accept request n w =
    (Ok (HttpResponseRedirect (IngredientUrl n)),
     {| db := update_rows n (set_status STATUS_ACCEPTED i) (db w);
        cache := cache w;
        trace := trace w ++ accept_events request n i |}).
Proof.
  intros Hperm Hget. pose proof (db_get_pk _ _ _ Hget) as Hpk.
  rewrite accept_allowed, (accept_view_found _ _ _ i) by done.
  rewrite db_save_loaded; simpl; rewrite Hpk; [done | by rewrite Hget].
Qed.

Lemma decline_run request n w i :
  has_perm (user request) "nutrition.add_ingredient" = true →
  db_get n (db w) = Some i →
  decline request n w =
    (Ok (HttpResponseRedirect (IngredientUrl n)),
     {| db := update_rows n (set_status STATUS_DECLINED i) (db w);
        cache := cache w;
        trace := trace w ++ decline_events request n i |}).
Proof.
  intros Hperm Hget. pose proof (db_get_pk _ _ _ Hget) as Hpk.
  rewrite decline_allowed, (decline_view_found _ _ _ i) by done.
  rewrite db_save_loaded; simpl; rewrite Hpk; [done | by rewrite Hget].
Qed.

Lemma elem_of_pending_queryset rows r :
  r ∈ PendingIngredientListView_get_queryset rows ↔
  r ∈ rows ∧ status r = STATUS_PENDING.
Proof.
  unfold PendingIngredientListView_get_queryset, order_by_creation_date_desc.
  rewrite merge_sort_Permutation. apply elem_of_filter_status.
Qed.

Lemma elem_of_public_queryset languages request rows r :
  r ∈ IngredientListView_get_queryset languages request rows ↔
  r ∈ rows ∧ status r = STATUS_ACCEPTED ∧ language r ∈ languages request.
Proof.
  unfold IngredientListView_get_queryset, accepted. simpl.
  rewrite list_elem_of_In, filter_In, <- list_elem_of_In.
  rewrite elem_of_filter_status, bool_decide_eq_true. tauto.
Qed.

(** ** The privilege gate *)

(** X1: a caller without the add privilege cannot moderate.  Whether or not
    the identifier exists, [accept] and [decline] give the decorator's own
    answer and leave the world exactly as it was: no row is read or saved,
    no notification or message is sent. *)
Theorem moderation_refused_without_privilege request n w :
  has_perm (user request) "nutrition.add_ingredient" = false →
  accept request n w = (Ok PermissionDeniedResponse, w) ∧
  decline request n w = (Ok PermissionDeniedResponse, w).
Proof.
  intros Hperm. unfold accept, decline, permission_required.
  by rewrite Hperm.
Qed.

Lemma moderation_refused_without_privilege_witness :
  has_perm (user Samples.visitor) "nutrition.add_ingredient" = false ∧
  accept Samples.visitor 1 (Samples.world [Samples.A]) =
    (Ok PermissionDeniedResponse, Samples.world [Samples.A]) ∧
  decline Samples.visitor 1 (Samples.world [Samples.A]) =
    (Ok PermissionDeniedResponse, Samples.world [Samples.A]).
Proof.
  split; [reflexivity|].
  apply (moderation_refused_without_privilege Samples.visitor 1
           (Samples.world [Samples.A])); reflexivity.
Defined.

(** ** What a moderation call does to the table *)

(** X2: a successful [accept] or [decline] rewrites only the rows of the
    given identifier.  Position by position, a row of another identifier is
    the row that was there, and a row of the given identifier is the loaded
    record with the new status (accepted after [accept], declined after
    [decline]) and every other field as loaded.  The table keeps its length
    and its column of identifiers, and identifiers that were unique stay
    unique. *)
Theorem moderation_rewrites_only_target request n w i :
  has_perm (user request) "nutrition.add_ingredient" = true →
  db_get n (db w) = Some i →
  ∃ ia id,
    status ia = STATUS_ACCEPTED ∧ same_but_status i ia ∧
    status id = STATUS_DECLINED ∧ same_but_status i id ∧
    (∀ (k : nat) r, db w !! k = Some r →
       db (world_after (accept request n) w) !! k =
         Some (if pk r =? n then ia else r)) ∧
    (∀ (k : nat) r, db w !! k = Some r →
       db (world_after (decline request n) w) !! k =
         Some (if pk r =? n then id else r)) ∧
    length (db (world_after (accept request n) w)) = length (db w) ∧
    length (db (world_after (decline request n) w)) = length (db w) ∧
    pk <$> db (world_after (accept request n) w) = pk <$> db w ∧
    pk <$> db (world_after (decline request n) w) = pk <$> db w ∧
    (NoDup (pk <$> db w) →
     NoDup (pk <$> db (world_after (accept request n) w)) ∧
     NoDup (pk <$> db (world_after (decline request n) w))).
Proof.
  intros Hperm Hget. pose proof (db_get_pk _ _ _ Hget) as Hpk.
  exists (set_status STATUS_ACCEPTED i), (set_status STATUS_DECLINED i).
  unfold world_after.
  rewrite (accept_run _ _ _ i), (decline_run _ _ _ i) by done. simpl.
  rewrite !update_rows_pk, !length_update_rows by done.
  split; [reflexivity|]. split; [exact (set_status_same STATUS_ACCEPTED i)|].
  split; [reflexivity|]. split; [exact (set_status_same STATUS_DECLINED i)|].
  split; [intros k r Hk; by apply lookup_update_rows|].
  split; [intros k r Hk; by apply lookup_update_rows|].
  by repeat split.
Qed.

Lemma moderation_rewrites_only_target_witness :
  has_perm (user Samples.moderator) "nutrition.add_ingredient" = true ∧
  db_get 1 (db (Samples.world [Samples.A; Samples.B])) = Some Samples.A ∧
  ∃ ia id,
    status ia = STATUS_ACCEPTED ∧ same_but_status Samples.A ia ∧
    status id = STATUS_DECLINED ∧ same_but_status Samples.A id ∧
    (∀ (k : nat) r, db (Samples.world [Samples.A; Samples.B]) !! k = Some r →
       db (world_after (accept Samples.moderator 1)
             (Samples.world [Samples.A; Samples.B])) !! k =
         Some (if pk r =? 1 then ia else r)) ∧
    (∀ (k : nat) r, db (Samples.world [Samples.A; Samples.B]) !! k = Some r →
       db (world_after (decline Samples.moderator 1)
             (Samples.world [Samples.A; Samples.B])) !! k =
         Some (if pk r =? 1 then id else r)) ∧
    length (db (world_after (accept Samples.moderator 1)
                  (Samples.world [Samples.A; Samples.B]))) =
      length (db (Samples.world [Samples.A; Samples.B])) ∧
    length (db (world_after (decline Samples.moderator 1)
                  (Samples.world [Samples.A; Samples.B]))) =
      length (db (Samples.world [Samples.A; Samples.B])) ∧
    pk <$> db (world_after (accept Samples.moderator 1)
                 (Samples.world [Samples.A; Samples.B])) =
      pk <$> db (Samples.world [Samples.A; Samples.B]) ∧
    pk <$> db (world_after (decline Samples.moderator 1)
                 (Samples.world [Samples.A; Samples.B])) =
      pk <$> db (Samples.world [Samples.A; Samples.B]) ∧
    (NoDup (pk <$> db (Samples.world [Samples.A; Samples.B])) →
     NoDup (pk <$> db (world_after (accept Samples.moderator 1)
                         (Samples.world [Samples.A; Samples.B]))) ∧
     NoDup (pk <$> db (world_after (decline Samples.moderator 1)
                         (Samples.world [Samples.A; Samples.B])))).
Proof.
  split; [reflexivity|]. split; [reflexivity|].
  apply (moderation_rewrites_only_target Samples.moderator 1
           (Samples.world [Samples.A; Samples.B]) Samples.A); reflexivity.
Defined.

Example moderation_rewrites_only_target_example :
  db (world_after (decline Samples.moderator 1)
        (Samples.world [Samples.A; Samples.B])) =
  [Samples.ingredient 1 STATUS_DECLINED 10; Samples.B].
Proof. vm_compute. reflexivity. Qed.

(** X3: accepting twice stores nothing new the second time but notifies
    again.  After a second [accept] of the same identifier the table is the
    one left by the first call, and the two calls together have added two
    notifications to the trace. *)
Theorem accept_twice request n w i :
  has_perm (user request) "nutrition.add_ingredient" = true →
  db_get n (db w) = Some i →
  ∃ w1 w2 evs,
    accept request n w = (Ok (HttpResponseRedirect (IngredientUrl n)), w1) ∧
    accept request n w1 = (Ok (HttpResponseRedirect (IngredientUrl n)), w2) ∧
    db w2 = db w1 ∧
    trace w2 = trace w ++ evs ∧
    count_events is_db_write evs = 2%nat ∧
    count_events is_notification evs = 2%nat.
Proof.
  intros Hperm Hget. pose proof (db_get_pk _ _ _ Hget) as Hpk.
  eexists _, _, (accept_events request n i ++
                 accept_events request n (set_status STATUS_ACCEPTED i)).
  rewrite (accept_run _ _ _ i) by done.
  split; [reflexivity|].
  rewrite (accept_run _ _ _ (set_status STATUS_ACCEPTED i)); simpl.
  - split; [reflexivity|]. simpl.
    split; [by apply update_rows_twice|].
    split; [by rewrite <- app_assoc|]. done.
  - done.
  - by apply (db_get_update_rows _ _ _ i).
Qed.

Lemma accept_twice_witness :
  has_perm (user Samples.moderator) "nutrition.add_ingredient" = true ∧
  db_get 1 (db (Samples.world [Samples.A; Samples.B])) = Some Samples.A ∧
  ∃ w1 w2 evs,
    accept Samples.moderator 1 (Samples.world [Samples.A; Samples.B]) =
      (Ok (HttpResponseRedirect (IngredientUrl 1)), w1) ∧
    accept Samples.moderator 1 w1 =
      (Ok (HttpResponseRedirect (IngredientUrl 1)), w2) ∧
    db w2 = db w1 ∧
    trace w2 = trace (Samples.world [Samples.A; Samples.B]) ++ evs ∧
    count_events is_db_write evs = 2%nat ∧
    count_events is_notification evs = 2%nat.
Proof.
  split; [reflexivity|]. split; [reflexivity|].
  apply (accept_twice Samples.moderator 1
           (Samples.world [Samples.A; Samples.B]) Samples.A); reflexivity.
Defined.

(** X4: the last transition wins.  [accept] followed by [decline] leaves
    the table that [decline] alone would have left, and [decline] followed
    by [accept] leaves the table that [accept] alone would have left; in
    both orders the two calls together send exactly one notification. *)
Theorem last_transition_wins request n w i :
  has_perm (user request) "nutrition.add_ingredient" = true →
  db_get n (db w) = Some i →
  (∃ evs,
     db (world_after (decline request n) (world_after (accept request n) w)) =
       db (world_after (decline request n) w) ∧
     trace (world_after (decline request n) (world_after (accept request n) w)) =
       trace w ++ evs ∧
     count_events is_notification evs = 1%nat) ∧
  (∃ evs,
     db (world_after (accept request n) (world_after (decline request n) w)) =
       db (world_after (accept request n) w) ∧
     trace (world_after (accept request n) (world_after (decline request n) w)) =
       trace w ++ evs ∧
     count_events is_notification evs = 1%nat).
Proof.
  intros Hperm Hget. pose proof (db_get_pk _ _ _ Hget) as Hpk.
  unfold world_after.
  rewrite (accept_run request n w i), (decline_run request n w i) by done.
  simpl. split.
  - exists (accept_events request n i ++
            decline_events request n (set_status STATUS_ACCEPTED i)).
    rewrite (decline_run _ _ _ (set_status STATUS_ACCEPTED i)); simpl;
      [| done | by apply (db_get_update_rows _ _ _ i)].
    split; [by apply update_rows_twice|].
    split; [by rewrite <- app_assoc | done].
  - exists (decline_events request n i ++
            accept_events request n (set_status STATUS_DECLINED i)).
    rewrite (accept_run _ _ _ (set_status STATUS_DECLINED i)); simpl;
      [| done | by apply (db_get_update_rows _ _ _ i)].
    split; [by apply update_rows_twice|].
    split; [by rewrite <- app_assoc | done].
Qed.

Lemma last_transition_wins_witness :
  has_perm (user Samples.moderator) "nutrition.add_ingredient" = true ∧
  db_get 3 (db (Samples.world [Samples.A; Samples.C])) = Some Samples.C ∧
  (∃ evs,
     db (world_after (decline Samples.moderator 3)
           (world_after (accept Samples.moderator 3)
              (Samples.world [Samples.A; Samples.C]))) =
       db (world_after (decline Samples.moderator 3)
             (Samples.world [Samples.A; Samples.C])) ∧
     trace (world_after (decline Samples.moderator 3)
              (world_after (accept Samples.moderator 3)
                 (Samples.world [Samples.A; Samples.C]))) =
       trace (Samples.world [Samples.A; Samples.C]) ++ evs ∧
     count_events is_notification evs = 1%nat) ∧
  (∃ evs,
     db (world_after (accept Samples.moderator 3)
           (world_after (decline Samples.moderator 3)
              (Samples.world [Samples.A; Samples.C]))) =
       db (world_after (accept Samples.moderator 3)
             (Samples.world [Samples.A; Samples.C])) ∧
     trace (world_after (accept Samples.moderator 3)
              (world_after (decline Samples.moderator 3)
                 (Samples.world [Samples.A; Samples.C]))) =
       trace (Samples.world [Samples.A; Samples.C]) ++ evs ∧
     count_events is_notification evs = 1%nat).
Proof.
  split; [reflexivity|]. split; [reflexivity|].
  apply (last_transition_wins Samples.moderator 3
           (Samples.world [Samples.A; Samples.C]) Samples.C); reflexivity.
Defined.

(** ** Moderation and the two lists *)

(** X5: a moderated record leaves the pending list and nothing else does.
    After a successful [accept] or [decline] of an identifier, the pending
    list holds exactly the rows it held before whose identifier is another
    one. *)
Theorem moderated_record_leaves_pending_list request n w i r :
  has_perm (user request) "nutrition.add_ingredient" = true →
  db_get n (db w) = Some i →
  (r ∈ PendingIngredientListView_get_queryset
         (db (world_after (accept request n) w)) ↔
   r ∈ PendingIngredientListView_get_queryset (db w) ∧ pk r ≠ n) ∧
  (r ∈ PendingIngredientListView_get_queryset
         (db (world_after (decline request n) w)) ↔
   r ∈ PendingIngredientListView_get_queryset (db w) ∧ pk r ≠ n).
Proof.
  intros Hperm Hget. unfold world_after.
  rewrite (accept_run _ _ _ i), (decline_run _ _ _ i) by done. simpl.
  rewrite !elem_of_pending_queryset, !elem_of_update_rows.
  split; (split; [intros [[(-> & _)|?] Hs]; [done | tauto] | tauto]).
Qed.

Lemma moderated_record_leaves_pending_list_witness :
  has_perm (user Samples.moderator) "nutrition.add_ingredient" = true ∧
  db_get 1 (db (Samples.world [Samples.A; Samples.B; Samples.C])) =
    Some Samples.A ∧
  (Samples.C ∈ PendingIngredientListView_get_queryset
         (db (world_after (accept Samples.moderator 1)
                (Samples.world [Samples.A; Samples.B; Samples.C]))) ↔
   Samples.C ∈ PendingIngredientListView_get_queryset
         (db (Samples.world [Samples.A; Samples.B; Samples.C])) ∧
   pk Samples.C ≠ 1) ∧
  (Samples.C ∈ PendingIngredientListView_get_queryset
         (db (world_after (decline Samples.moderator 1)
                (Samples.world [Samples.A; Samples.B; Samples.C]))) ↔
   Samples.C ∈ PendingIngredientListView_get_queryset
         (db (Samples.world [Samples.A; Samples.B; Samples.C])) ∧
   pk Samples.C ≠ 1).
Proof.
  split; [reflexivity|]. split; [reflexivity|].
  apply (moderated_record_leaves_pending_list Samples.moderator 1
           (Samples.world [Samples.A; Samples.B; Samples.C]) Samples.A
           Samples.C); reflexivity.
Defined.

Example pending_list_after_accept_example :
  PendingIngredientListView_get_queryset
    (db (world_after (accept Samples.moderator 3)
           (Samples.world [Samples.A; Samples.B; Samples.C]))) = [Samples.A].
Proof. vm_compute. reflexivity. Qed.

(** X6: what moderation does to the public overview.  After a successful
    [accept] the overview of any requester holds the rows it held before
    under other identifiers, plus the accepted record exactly when its
    language is one of the requester's.  After a successful [decline] it
    holds the rows it held before under other identifiers and no row of the
    declined identifier. *)
Theorem public_list_after_moderation
    (load_ingredient_languages : Request → list Z)
    (reader : Request) request n w i r :
  has_perm (user request) "nutrition.add_ingredient" = true →
  db_get n (db w) = Some i →
  (r ∈ IngredientListView_get_queryset load_ingredient_languages reader
         (db (world_after (accept request n) w)) ↔
   (r ∈ IngredientListView_get_queryset load_ingredient_languages reader (db w) ∧
    pk r ≠ n) ∨
   (r = set_status STATUS_ACCEPTED i ∧
    language i ∈ load_ingredient_languages reader)) ∧
  (r ∈ IngredientListView_get_queryset load_ingredient_languages reader
         (db (world_after (decline request n) w)) ↔
   r ∈ IngredientListView_get_queryset load_ingredient_languages reader (db w) ∧
   pk r ≠ n).
Proof.
  intros Hperm Hget. unfold world_after.
  assert (Hex : ∃ r0, r0 ∈ db w ∧ pk r0 = n).
  { exists i. eauto using db_get_elem_of, db_get_pk. }
  rewrite (accept_run _ _ _ i), (decline_run _ _ _ i) by done. simpl.
  rewrite !elem_of_public_queryset, !elem_of_update_rows. split.
  - split.
    + intros ([(-> & _)|?] & Hs & Hl); [right; by split | left; tauto].
    + intros [?|[-> Hl]]; [tauto|]. split; [by left | by split].
  - split; [|tauto].
    intros ([(-> & _)|?] & Hs & Hl); [done | tauto].
Qed.

Lemma public_list_after_moderation_witness :
  has_perm (user Samples.moderator) "nutrition.add_ingredient" = true ∧
  db_get 1 (db (Samples.world [Samples.A; Samples.B])) = Some Samples.A ∧
  (set_status STATUS_ACCEPTED Samples.A ∈
     IngredientListView_get_queryset (λ _, [2]) Samples.visitor
       (db (world_after (accept Samples.moderator 1)
              (Samples.world [Samples.A; Samples.B]))) ↔
   (set_status STATUS_ACCEPTED Samples.A ∈
      IngredientListView_get_queryset (λ _, [2]) Samples.visitor
        (db (Samples.world [Samples.A; Samples.B])) ∧
    pk (set_status STATUS_ACCEPTED Samples.A) ≠ 1) ∨
   (set_status STATUS_ACCEPTED Samples.A = set_status STATUS_ACCEPTED Samples.A ∧
    language Samples.A ∈ (λ _ : Request, [2]) Samples.visitor)) ∧
  (set_status STATUS_ACCEPTED Samples.A ∈
     IngredientListView_get_queryset (λ _, [2]) Samples.visitor
       (db (world_after (decline Samples.moderator 1)
              (Samples.world [Samples.A; Samples.B]))) ↔
   set_status STATUS_ACCEPTED Samples.A ∈
     IngredientListView_get_queryset (λ _, [2]) Samples.visitor
       (db (Samples.world [Samples.A; Samples.B])) ∧
   pk (set_status STATUS_ACCEPTED Samples.A) ≠ 1).
Proof.
  split; [reflexivity|]. split; [reflexivity|].
  apply (public_list_after_moderation (λ _, [2]) Samples.visitor
           Samples.moderator 1 (Samples.world [Samples.A; Samples.B])
           Samples.A (set_status STATUS_ACCEPTED Samples.A)); reflexivity.
Defined.

Example public_list_after_accept_example :
  IngredientListView_get_queryset (λ _, [2]) Samples.visitor
    (db (world_after (accept Samples.moderator 1)
           (Samples.world [Samples.A; Samples.B]))) =
  [set_status STATUS_ACCEPTED Samples.A; Samples.B].
Proof. vm_compute. reflexivity. Qed.

(** X7: the pending list and the public overview never share a row: no row
    of the pending list is in the overview of any requester. *)
Theorem pending_and_public_lists_disjoint
    (load_ingredient_languages : Request → list Z)
    (request : Request) (rows : list Ingredient) :
  Forall (λ r, r ∉ IngredientListView_get_queryset
                     load_ingredient_languages request rows)
    (PendingIngredientListView_get_queryset rows).
Proof.
  apply Forall_forall. intros r Hpending Hpublic.
  apply elem_of_pending_queryset in Hpending as [_ Hp].
  apply elem_of_public_queryset in Hpublic as (_ & Ha & _).
  congruence.
Qed.

(** ** More on the cached view *)

(** X8: when the cache holds nothing under an identifier's key, a [view]
    that follows a successful [accept] of that identifier shows the accepted
    record: the record it renders has status accepted and is otherwise the
    record that was loaded, and that same record is then in the cache under
    the identifier's key. *)
Theorem view_after_accept_on_cold_cache request reader n w i :
  has_perm (user request) "nutrition.add_ingredient" = true →
  db_get n (db w) = Some i →
  cache w !! get_ingredient_key (ParamInt n) = None →
  ∃ data w2,
    view reader n (world_after (accept request n) w) =
      (Ok (Render reader "ingredient/view.html" data), w2) ∧
    status (td_ingredient data) = STATUS_ACCEPTED ∧
    same_but_status i (td_ingredient data) ∧
    td_ingredient data = set_status STATUS_ACCEPTED i ∧
    cache w2 !! get_ingredient_key (ParamInt n) = Some (td_ingredient data).
Proof.
  intros Hperm Hget Hcold. pose proof (db_get_pk _ _ _ Hget) as Hpk.
  unfold world_after. rewrite (accept_run _ _ _ i) by done. simpl.
  eexists _, _.
  rewrite (view_miss_found _ _ _ (set_status STATUS_ACCEPTED i));
    [| done | by apply (db_get_update_rows _ _ _ i)].
  split; [reflexivity|]. simpl.
  split; [reflexivity|].
  split; [exact (set_status_same STATUS_ACCEPTED i)|].
  split; [done|].
  unfold get_ingredient_key. simpl. rewrite Hpk. apply lookup_insert_eq.
Qed.

Lemma view_after_accept_on_cold_cache_witness :
  has_perm (user Samples.moderator) "nutrition.add_ingredient" = true ∧
  db_get 1 (db (Samples.world [Samples.A; Samples.B])) = Some Samples.A ∧
  cache (Samples.world [Samples.A; Samples.B]) !!
    get_ingredient_key (ParamInt 1) = None ∧
  ∃ data w2,
    view Samples.visitor 1
      (world_after (accept Samples.moderator 1)
         (Samples.world [Samples.A; Samples.B])) =
      (Ok (Render Samples.visitor "ingredient/view.html" data), w2) ∧
    status (td_ingredient data) = STATUS_ACCEPTED ∧
    same_but_status Samples.A (td_ingredient data) ∧
    td_ingredient data = set_status STATUS_ACCEPTED Samples.A ∧
    cache w2 !! get_ingredient_key (ParamInt 1) = Some (td_ingredient data).
Proof.
  split; [reflexivity|]. split; [reflexivity|]. split; [reflexivity|].
  apply (view_after_accept_on_cold_cache Samples.moderator Samples.visitor 1
           (Samples.world [Samples.A; Samples.B]) Samples.A); reflexivity.
Defined.

(** X9: [view] keeps the cache consistent and, on a consistent cache,
    answers for the identifier asked.  If every snapshot in the cache sits
    under the key of its own identifier, the same holds after [view], and
    [view] either fails with the not-found error, the table having no row of
    that identifier, or renders a record whose identifier is the one
    asked. *)
Theorem view_keeps_cache_consistent request id w :
  cache_consistent (cache w) →
  ∃ result w',
    view request id w = (result, w') ∧
    cache_consistent (cache w') ∧
    ((result = Raise Http404 ∧ db_get id (db w) = None) ∨
     (∃ data, result = Ok (Render request "ingredient/view.html" data) ∧
              pk (td_ingredient data) = id)).
Proof.
  intros Hcons.
  destruct (cache w !! get_ingredient_key (ParamInt id)) as [snapshot|] eqn:Hc.
  - eexists _, _. rewrite (view_hit _ _ _ snapshot) by done.
    split; [reflexivity|]. simpl. split; [done|].
    right. eexists. split; [reflexivity|]. simpl. by apply Hcons.
  - destruct (db_get id (db w)) as [i|] eqn:Hd.
    + eexists _, _. rewrite (view_miss_found _ _ _ i) by done.
      split; [reflexivity|]. simpl. split.
      * intros m j. rewrite (get_ingredient_key_loaded _ _ _ Hd).
        unfold get_ingredient_key. simpl. rewrite lookup_insert.
        case_decide as Hk.
        -- intros [= <-]. injection Hk as <-. eauto using db_get_pk.
        -- apply Hcons.
      * right. eexists. split; [reflexivity|]. simpl. eauto using db_get_pk.
    + eexists _, _. rewrite view_miss_missing by done.
      split; [reflexivity|]. simpl. split; [done|]. by left.
Qed.

Lemma view_keeps_cache_consistent_witness :
  cache_consistent (cache (Samples.world [Samples.A; Samples.B])) ∧
  ∃ result w',
    view Samples.visitor 2 (Samples.world [Samples.A; Samples.B]) =
      (result, w') ∧
    cache_consistent (cache w') ∧
    ((result = Raise Http404 ∧
      db_get 2 (db (Samples.world [Samples.A; Samples.B])) = None) ∨
     (∃ data, result = Ok (Render Samples.visitor "ingredient/view.html" data) ∧
              pk (td_ingredient data) = 2)).
Proof.
  assert (H : cache_consistent (cache (Samples.world [Samples.A; Samples.B]))).
  { intros m j. simpl. by rewrite lookup_empty. }
  split; [exact H|].
  exact (view_keeps_cache_consistent Samples.visitor 2
           (Samples.world [Samples.A; Samples.B]) H).
Defined.

(** X10: a lookup of one identifier never disturbs the cache entry of
    another: after [view] of [id], the cache answers the key of every other
    identifier as it did before. *)
Theorem view_leaves_other_cache_entries request id w m :
  m ≠ id →
  cache (world_after (view request id) w) !! get_ingredient_key (ParamInt m) =
  cache w !! get_ingredient_key (ParamInt m).
Proof.
  intros Hm. unfold world_after.
  destruct (cache w !! get_ingredient_key (ParamInt id)) as [snapshot|] eqn:Hc.
  - by rewrite (view_hit _ _ _ snapshot).
  - destruct (db_get id (db w)) as [i|] eqn:Hd.
    + rewrite (view_miss_found _ _ _ i) by done. simpl.
      rewrite (get_ingredient_key_loaded _ _ _ Hd).
      apply lookup_insert_ne. unfold get_ingredient_key. simpl. congruence.
    + by rewrite view_miss_missing.
Qed.

Lemma view_leaves_other_cache_entries_witness :
  1 ≠ 2 ∧
  cache (world_after (view Samples.visitor 2)
           (Samples.world [Samples.A; Samples.B])) !!
    get_ingredient_key (ParamInt 1) =
  cache (Samples.world [Samples.A; Samples.B]) !!
    get_ingredient_key (ParamInt 1).
Proof.
  assert (H : 1 ≠ 2) by lia.
  split; [exact H|].
  exact (view_leaves_other_cache_entries Samples.visitor 2
           (Samples.world [Samples.A; Samples.B]) 1 H).
Defined.

(** X11: whenever [view] answers, it renders the template
    [ingredient/view.html] for the request it was given, and the unit
    chooser form is prefilled for the very ingredient shown: its ingredient
    id is that ingredient's identifier, its amount is 100 and it has no
    unit. *)
Theorem view_prefills_form request id w response w' :
  view request id w = (Ok response, w') →
  ∃ data,
    response = Render request "ingredient/view.html" data ∧
    form_ingredient_id (td_form data) = pk (td_ingredient data) ∧
    form_amount (td_form data) = 100 ∧
    form_unit (td_form data) = None ∧
    td_show_shariff data = true.
Proof.
  destruct (cache w !! get_ingredient_key (ParamInt id)) as [snapshot|] eqn:Hc.
  - rewrite (view_hit _ _ _ snapshot) by done. intros [= <- _]. by eexists.
  - destruct (db_get id (db w)) as [i|] eqn:Hd.
    + rewrite (view_miss_found _ _ _ i) by done. intros [= <- _]. by eexists.
    + by rewrite view_miss_missing.
Qed.

Lemma view_prefills_form_witness :
  ∃ response w',
    view Samples.visitor 2 (Samples.world [Samples.A; Samples.B]) =
      (Ok response, w') ∧
    ∃ data,
      response = Render Samples.visitor "ingredient/view.html" data ∧
      form_ingredient_id (td_form data) = pk (td_ingredient data) ∧
      form_amount (td_form data) = 100 ∧
      form_unit (td_form data) = None ∧
      td_show_shariff data = true.
Proof.
  eexists _, _. split; [reflexivity|].
  eapply (view_prefills_form Samples.visitor 2
            (Samples.world [Samples.A; Samples.B])).
  reflexivity.
Defined.

(** ** The order of the pending list *)

Lemma filter_Permutation (f : Ingredient → bool) (l1 l2 : list Ingredient) :
  l1 ≡ₚ l2 → List.filter f l1 ≡ₚ List.filter f l2.
Proof.
  induction 1 as [|x l1 l2 _ IH|x y l|l1 l2 l3 _ IH1 _ IH2]; simpl.
  - done.
  - destruct (f x); [by constructor | done].
  - destruct (f x), (f y); try done. apply perm_swap.
  - by etrans.
Qed.

(** X12: the pending list does not depend on the order of the rows in the
    table, provided the order clause decides: if two tables hold the same
    rows and pending rows with the same creation date are the same row,
    both tables give the same pending list, element by element. *)
Theorem pending_list_independent_of_row_order (rows1 rows2 : list Ingredient) :
  rows1 ≡ₚ rows2 →
  (∀ a b, a ∈ rows1 → b ∈ rows1 →
          status a = STATUS_PENDING → status b = STATUS_PENDING →
          creation_date a = creation_date b → a = b) →
  PendingIngredientListView_get_queryset rows1 =
  PendingIngredientListView_get_queryset rows2.
Proof.
  intros Hperm Hties.
  apply (StronglySorted_unique_strong newer_first).
  - intros a b Ha Hb Hab Hba.
    apply elem_of_pending_queryset in Ha as [Ha Hsa].
    apply elem_of_pending_queryset in Hb as [Hb Hsb].
    rewrite <- Hperm in Hb. unfold newer_first in *.
    apply Hties; [done..|lia].
  - apply (StronglySorted_merge_sort newer_first).
  - apply (StronglySorted_merge_sort newer_first).
  - unfold PendingIngredientListView_get_queryset, order_by_creation_date_desc.
    rewrite !merge_sort_Permutation. by apply filter_Permutation.
Qed.

Lemma pending_list_independent_of_row_order_witness :
  [Samples.A; Samples.B; Samples.C] ≡ₚ [Samples.C; Samples.A; Samples.B] ∧
  (∀ a b, a ∈ [Samples.A; Samples.B; Samples.C] →
          b ∈ [Samples.A; Samples.B; Samples.C] →
          status a = STATUS_PENDING → status b = STATUS_PENDING →
          creation_date a = creation_date b → a = b) ∧
  PendingIngredientListView_get_queryset [Samples.A; Samples.B; Samples.C] =
  PendingIngredientListView_get_queryset [Samples.C; Samples.A; Samples.B].
Proof.
  assert (Hperm : [Samples.A; Samples.B; Samples.C] ≡ₚ
                  [Samples.C; Samples.A; Samples.B]).
  { change ([Samples.A; Samples.B] ++ [Samples.C] ≡ₚ
            [Samples.C] ++ [Samples.A; Samples.B]).
    apply Permutation_app_comm. }
  assert (Hties : ∀ a b, a ∈ [Samples.A; Samples.B; Samples.C] →
          b ∈ [Samples.A; Samples.B; Samples.C] →
          status a = STATUS_PENDING → status b = STATUS_PENDING →
          creation_date a = creation_date b → a = b).
  { intros a b Ha Hb _ _.
    repeat (apply elem_of_cons in Ha as [->|Ha]);
      [| | | by apply elem_of_nil in Ha];
      (repeat (apply elem_of_cons in Hb as [->|Hb]);
         [| | | by apply elem_of_nil in Hb]); simpl; (done || lia). }
  split; [exact Hperm|]. split; [exact Hties|].
  exact (pending_list_independent_of_row_order _ _ Hperm Hties).
Defined.
